(** * Marketplace hooks of react-core: a shallow embedding

    Source: packages/react-core/src/evm/hooks/async/marketplace.ts

    The hooks are thin wrappers: a read hook builds a query (cache key,
    fetcher, options) and hands it to the query engine; a write hook builds
    a mutation (mutation function, [onSettled] callback) and hands it to
    the mutation engine.  The embedding keeps that shape.  A fetcher is a
    computation in a small writer/error monad whose log records every call
    that reaches the contract (the provider) and every cache invalidation. *)

From Stdlib Require Import String Ascii List ZArith Bool Lia.
Import ListNotations.
Local Open Scope string_scope.
Local Open Scope list_scope.
Local Open Scope Z_scope.

Set Implicit Arguments.

(** ** JavaScript strings: [String.prototype.includes] *)

Module JsString.

(** [s.startsWith(p)] *)
Fixpoint startsWith (p s : string) : bool :=
  match p, s with
  | EmptyString, _ => true
  | String _ _, EmptyString => false
  | String a p', String b s' => Ascii.eqb a b && startsWith p' s'
  end.

(** [s.includes(sub)]: [sub] occurs at some position of [s]. *)
Fixpoint includes (sub s : string) : bool :=
  startsWith sub s ||
  match s with
  | EmptyString => false
  | String _ s' => includes sub s'
  end.

End JsString.

(** ** Values that cross the provider boundary *)

(** [BigNumberish] of ethers: an arbitrary-precision integer. *)
Definition BigNumberish := Z.

(** Results and payloads the hooks pass through without inspecting. *)
Inductive JsValue :=
| JsUndefined
| JsString (s : string)
| JsBigNumber (n : Z)
| JsObject (tag : string).

(** A value a provider promise rejects with.  The hooks only ever read
    [err?.message], so a rejection is nullish or carries an optional
    message. *)
Inductive Thrown :=
| ThrownNullish
| ThrownError (message : option string).

(** Everything a fetcher or mutation function can throw. *)
Inductive Exn :=
| InvariantError (message : string)      (* invariant(cond, message) *)
| RequiredParamError (message : string)  (* requiredParamInvariant(v, message) *)
| TypeError (message : string)           (* member access or call on undefined *)
| ProviderError (err : Thrown).          (* rejection of a provider promise *)

(** [RequiredParam<T> = T | undefined] *)
Definition RequiredParam (T : Type) := option T.

(** [enum ListingType { Direct = 0, Auction = 1 }] *)
Inductive ListingType := Direct | Auction.

Definition ListingType_eqb (a b : ListingType) : bool :=
  match a, b with
  | Direct, Direct | Auction, Auction => true
  | _, _ => false
  end.

(** Inputs of the write hooks (types.ts and the SDK). *)
Record MakeBidParams := { mb_listingId : BigNumberish; mb_bid : JsValue }.
Record MakeOfferParams :=
  { mo_listingId : BigNumberish; mo_pricePerToken : JsValue; mo_quantity : JsValue }.
Record AcceptDirectOffer := { ao_listingId : BigNumberish; ao_addressOfOfferor : string }.
Record ExecuteAuctionSale := { es_listingId : BigNumberish }.
Record BuyNowParams :=
  { bn_id : BigNumberish;
    bn_type : ListingType;
    bn_buyAmount : option BigNumberish;
    bn_buyForWallet : option string }.
(** [Pick<AuctionListing | DirectListing, "type" | "id">] *)
Record ListingRef := { lr_type : ListingType; lr_id : BigNumberish }.

(** ** The provider: every method the hooks call on a contract handle *)

Inductive ProviderCall :=
| GetListing (listingId : BigNumberish)
| GetAllListings (filter : option JsValue)
| GetTotalCount
| GetActiveListings (filter : option JsValue)
| GetBidBufferBps
| MakeOffer (listingId : BigNumberish) (pricePerToken quantity : JsValue)
| AuctionGetWinningBid (listingId : BigNumberish)
| AuctionGetWinner (listingId : BigNumberish)
| AuctionGetMinimumNextBid (listingId : BigNumberish)
| AuctionCreateListing (data : JsValue)
| AuctionCancelListing (id : BigNumberish)
| AuctionMakeBid (listingId : BigNumberish) (bid : JsValue)
| AuctionExecuteSale (listingId : BigNumberish)
| AuctionBuyoutListing (id : BigNumberish)
| DirectCreateListing (data : JsValue)
| DirectCancelListing (id : BigNumberish)
| DirectAcceptOffer (listingId : BigNumberish) (addressOfOfferor : string)
| DirectBuyoutListing (id : BigNumberish) (buyAmount : option BigNumberish)
    (buyForWallet : option string).

(** How an awaited provider promise settles. *)
Inductive Outcome :=
| Resolves (v : JsValue)
| Rejects (err : Thrown).

(** Which methods exist on [contract.direct] and [contract.auction].  The
    source tests some of them for existence before calling, so their
    presence is part of the handle. *)
Record MarketplaceDirect :=
  { direct_createListing : bool;
    direct_cancelListing : bool;
    direct_acceptOffer : bool;
    direct_buyoutListing : bool }.

Record MarketplaceAuction :=
  { auction_getWinningBid : bool;
    auction_getWinner : bool;
    auction_getMinimumNextBid : bool;
    auction_createListing : bool;
    auction_cancelListing : bool;
    auction_makeBid : bool;
    auction_executeSale : bool;
    auction_buyoutListing : bool }.

Record Marketplace :=
  { getAddress : string;
    direct : option MarketplaceDirect;
    auction : option MarketplaceAuction;
    (** the behaviour of the deployed contract behind the handle *)
    provider : ProviderCall -> Outcome }.

(** ** Effects: a log of provider calls and invalidations, plus exceptions *)

Inductive Event :=
| Called (c : ProviderCall)
| Invalidated (contractAddress : option string) (chainId : option Z).

Definition Log := list Event.

Definition M (A : Type) : Type := (Log * (Exn + A))%type.

Definition ret {A} (a : A) : M A := ([], inr a).

Definition throw {A} (e : Exn) : M A := ([], inl e).

Definition bind {A B} (m : M A) (k : A -> M B) : M B :=
  match m with
  | (l, inl e) => (l, inl e)
  | (l, inr a) => let (l', r) := k a in (l ++ l', r)
  end.

(** [try { m } catch (err) { handler err }] *)
Definition try_catch {A} (m : M A) (handler : Exn -> M A) : M A :=
  match m with
  | (l, inl e) => let (l', r) := handler e in (l ++ l', r)
  | (l, inr a) => (l, inr a)
  end.

Declare Scope js_scope.
Delimit Scope js_scope with js.
Notation "x <- c ;; k" := (bind c (fun x => k))
  (at level 61, c at next level, right associativity) : js_scope.
Notation "c ;; k" := (bind c (fun _ => k))
  (at level 61, right associativity) : js_scope.
Local Open Scope js_scope.

Definition log_of {A} (m : M A) : Log := fst m.
Definition result_of {A} (m : M A) : Exn + A := snd m.

(** The provider calls recorded in a log. *)
Fixpoint calls (l : Log) : list ProviderCall :=
  match l with
  | [] => []
  | Called c :: l' => c :: calls l'
  | Invalidated _ _ :: l' => calls l'
  end.

(** [await method(args)] on a method slot of the handle: a missing method
    is a TypeError, a present one reaches the provider. *)
Definition invoke (contract : Marketplace) (present : bool) (name : string)
    (c : ProviderCall) : M JsValue :=
  if present then
    match provider contract c with
    | Resolves v => ([Called c], inr v)
    | Rejects err => ([Called c], inl (ProviderError err))
    end
  else throw (TypeError (name ++ " is not a function")%string).

(** [contract.direct] and [contract.auction] followed by a member access. *)
Definition get_direct (contract : Marketplace) : M MarketplaceDirect :=
  match direct contract with
  | Some d => ret d
  | None => throw (TypeError "Cannot read properties of undefined")
  end.

Definition get_auction (contract : Marketplace) : M MarketplaceAuction :=
  match auction contract with
  | Some a => ret a
  | None => throw (TypeError "Cannot read properties of undefined")
  end.

(** tiny-invariant: [invariant(condition, message)] throws when the
    condition is falsy. *)
Definition invariant (condition : bool) (message : string) : M unit :=
  if condition then ret tt else throw (InvariantError message).

(** Modelled from the spec: [requiredParamInvariant] of
    core/query-utils/required-param is not among the sources; section 7
    has an absent handle or parameter fail the invocation, and the call
    sites use the value as present afterwards. *)
Definition requiredParamInvariant {T} (v : RequiredParam T) (message : string) : M T :=
  match v with
  | Some x => ret x
  | None => throw (RequiredParamError message)
  end.

(** JavaScript truthiness of [string | undefined]. *)
Definition truthy (s : option string) : bool :=
  match s with
  | Some EmptyString | None => false
  | Some _ => true
  end.

(** The message [err?.message] reads off a caught exception. *)
Definition exn_message (e : Exn) : option string :=
  match e with
  | InvariantError m => Some ("Invariant failed: " ++ m)%string
  | RequiredParamError m => Some ("Invariant failed: " ++ m)%string
  | TypeError m => Some m
  | ProviderError ThrownNullish => None
  | ProviderError (ThrownError m) => m
  end.

(** ** Cache keys *)

(** A react-query key is an array of parts. *)
Inductive KeyPart :=
| KText (s : string)
| KAddress (contractAddress : option string)
| KId (listingId : option BigNumberish)
| KFilter (filter : option JsValue).

Definition CacheKey := list KeyPart.

(** The shape of [cacheKeys.contract.marketplace] (utils/cache-keys), as far
    as this file uses it.  The table itself is not among the sources: the
    hooks are parametric in it. *)
Record CacheKeys :=
  { ck_getListing : option string -> option BigNumberish -> CacheKey;
    ck_getAllListings : option string -> option JsValue -> CacheKey;
    ck_getTotalCount : option string -> CacheKey;
    ck_getActiveListings : option string -> option JsValue -> CacheKey;
    ck_getBidBufferBps : option string -> CacheKey;
    ck_auction_getWinningBid : option string -> option BigNumberish -> CacheKey;
    ck_auction_getWinner : option string -> option BigNumberish -> CacheKey }.

(** ** The query engine *)

Record QueryOptions := { enabled : bool; keepPreviousData : bool }.

Record Query :=
  { queryKey : CacheKey;
    queryFn : M JsValue;
    options : QueryOptions }.

(** [QueryResult<T>]: pending, error or data. *)
Inductive QueryResult :=
| QPending
| QError (e : Exn)
| QData (v : JsValue).

(** Modelled from the spec: [useQueryWithNetwork] of
    hooks/query-utils is not among the sources; section 6 gives the engine
    as [runQuery(key, fetcher, options{enabled, keepPreviousData})]. *)
Definition useQueryWithNetwork (key : CacheKey) (fetcher : M JsValue)
    (opts : QueryOptions) : Query :=
  {| queryKey := key; queryFn := fetcher; options := opts |}.

(** Modelled from the spec: the engine that executes a query (behind
    [useQueryWithNetwork]) is not among the sources; by sections 4.2 and 6
    a disabled query does not execute and reports a pending state, an
    enabled one runs its fetcher and reports the value as data or the
    failure as error. *)
Definition runQuery (q : Query) : Log * QueryResult :=
  if enabled (options q) then
    match queryFn q with
    | (l, inr v) => (l, QData v)
    | (l, inl e) => (l, QError e)
    end
  else ([], QPending).

(** [!!contract] *)
Definition present {T} (v : RequiredParam T) : bool :=
  match v with Some _ => true | None => false end.

(** A method of the handle itself ([contract.getListing], ...). *)
Definition call (contract : Marketplace) (c : ProviderCall) : M JsValue :=
  invoke contract true "contract method" c.

(** [err?.message?.includes(needle)], with [undefined] read as falsy. *)
Definition message_includes (e : Exn) (needle : string) : bool :=
  match exn_message e with
  | Some m => JsString.includes needle m
  | None => false
  end.

(** ** Read hooks *)

Section ReadHooks.

Variable cacheKeys : CacheKeys.

Definition useListing (contract : RequiredParam Marketplace)
    (listingId : RequiredParam BigNumberish) : Query :=
  let contractAddress := option_map getAddress contract in
  useQueryWithNetwork
    (ck_getListing cacheKeys contractAddress listingId)
    (contract <- requiredParamInvariant contract "No Contract instance provided" ;;
     listingId <- requiredParamInvariant listingId "No listing id provided" ;;
     call contract (GetListing listingId))
    {| enabled := present contract; keepPreviousData := true |}.

Definition useListings (contract : RequiredParam Marketplace)
    (filter : option JsValue) : Query :=
  let contractAddress := option_map getAddress contract in
  useQueryWithNetwork
    (ck_getAllListings cacheKeys contractAddress filter)
    (contract <- requiredParamInvariant contract "No Contract instance provided" ;;
     call contract (GetAllListings filter))
    {| enabled := present contract; keepPreviousData := true |}.

Definition useListingsCount (contract : RequiredParam Marketplace) : Query :=
  let contractAddress := option_map getAddress contract in
  useQueryWithNetwork
    (ck_getTotalCount cacheKeys contractAddress)
    (contract <- requiredParamInvariant contract "No Contract instance provided" ;;
     call contract GetTotalCount)
    {| enabled := present contract; keepPreviousData := false |}.

Definition useActiveListings (contract : RequiredParam Marketplace)
    (filter : option JsValue) : Query :=
  let contractAddress := option_map getAddress contract in
  useQueryWithNetwork
    (ck_getActiveListings cacheKeys contractAddress filter)
    (contract <- requiredParamInvariant contract "No Contract instance provided" ;;
     call contract (GetActiveListings filter))
    {| enabled := present contract; keepPreviousData := true |}.

Definition useWinningBid (contract : RequiredParam Marketplace)
    (listingId : RequiredParam BigNumberish) : Query :=
  let contractAddress := option_map getAddress contract in
  useQueryWithNetwork
    (ck_auction_getWinningBid cacheKeys contractAddress listingId)
    (contract <- requiredParamInvariant contract "No Contract instance provided" ;;
     listingId <- requiredParamInvariant listingId "No listing id provided" ;;
     a <- get_auction contract ;;
     invoke contract (auction_getWinningBid a) "contract.auction.getWinningBid"
       (AuctionGetWinningBid listingId))
    {| enabled := present contract && present listingId;
       keepPreviousData := false |}.

Definition useAuctionWinner (contract : RequiredParam Marketplace)
    (listingId : RequiredParam BigNumberish) : Query :=
  let contractAddress := option_map getAddress contract in
  useQueryWithNetwork
    (ck_auction_getWinner cacheKeys contractAddress listingId)
    (contract <- requiredParamInvariant contract "No Contract instance provided" ;;
     listingId <- requiredParamInvariant listingId "No listing id provided" ;;
     (* let winner: string | undefined; *)
     winner <-
       try_catch
         (a <- get_auction contract ;;
          invoke contract (auction_getWinner a) "contract.auction.getWinner"
            (AuctionGetWinner listingId))
         (fun err =>
            if negb (message_includes err "Could not find auction")
            then throw err
            else ret JsUndefined) ;;
     ret winner)
    {| enabled := present contract && present listingId;
       keepPreviousData := false |}.

Definition useBidBuffer (contract : RequiredParam Marketplace) : Query :=
  let contractAddress := option_map getAddress contract in
  useQueryWithNetwork
    (ck_getBidBufferBps cacheKeys contractAddress)
    (contract <- requiredParamInvariant contract "No Contract instance provided" ;;
     call contract GetBidBufferBps)
    {| enabled := present contract; keepPreviousData := false |}.

Definition useMinimumNextBid (contract : RequiredParam Marketplace)
    (listingId : RequiredParam BigNumberish) : Query :=
  let contractAddress := option_map getAddress contract in
  useQueryWithNetwork
    (ck_auction_getWinner cacheKeys contractAddress listingId)
    (contract <- requiredParamInvariant contract "No Contract instance provided" ;;
     listingId <- requiredParamInvariant listingId "No listing id provided" ;;
     a <- get_auction contract ;;
     invoke contract (auction_getMinimumNextBid a) "contract.auction.getMinimumNextBid"
       (AuctionGetMinimumNextBid listingId))
    {| enabled := present contract && present listingId;
       keepPreviousData := false |}.

End ReadHooks.

(** ** The mutation engine *)

Record Mutation (D : Type) :=
  { mutationFn : D -> M JsValue;
    onSettled : M unit }.

Definition useMutation {D} (fn : D -> M JsValue) (settled : M unit) : Mutation D :=
  {| mutationFn := fn; onSettled := settled |}.

(** Modelled from the spec: the engine that executes a mutation
    (react-query, [runMutation(fetcher, options{onSettled})] in section 6)
    is not among the sources; the mutation function runs, [onSettled] runs
    whether it resolved or rejected, and the caller gets the mutation
    function's own result. *)
Definition mutateAsync {D} (m : Mutation D) (data : D) : M JsValue :=
  try_catch
    (v <- mutationFn m data ;; onSettled m ;; ret v)
    (fun e => onSettled m ;; throw e).

(** Modelled from the spec: [invalidateContractAndBalances] of
    utils/cache-keys is not among the sources; section 4.3 has it
    invalidate every cached read entry associated with the contract
    address and the active network, recorded here as one event. *)
Definition invalidateContractAndBalances (contractAddress : option string)
    (chainId : option Z) : M unit :=
  ([Invalidated contractAddress chainId], inr tt).

(** What the hooks read from React context. *)
Record Env :=
  { useSDKChainId : option Z;
    useAddress : option string }.

(** ** Write hooks *)

Section WriteHooks.

Variable env : Env.

Definition useCreateDirectListing (contract : RequiredParam Marketplace)
    : Mutation JsValue :=
  let activeChainId := useSDKChainId env in
  let contractAddress := option_map getAddress contract in
  let walletAddress := useAddress env in
  useMutation
    (fun data =>
       invariant (truthy walletAddress) "no wallet connected, cannot create listing" ;;
       contract <- requiredParamInvariant contract "No Contract instance provided" ;;
       d <- get_direct contract ;;
       invariant (direct_createListing d)
         "contract does not support direct.createListing" ;;
       d <- get_direct contract ;;
       invoke contract (direct_createListing d) "contract.direct.createListing"
         (DirectCreateListing data))
    (invalidateContractAndBalances contractAddress activeChainId).

Definition useCreateAuctionListing (contract : RequiredParam Marketplace)
    : Mutation JsValue :=
  let activeChainId := useSDKChainId env in
  let contractAddress := option_map getAddress contract in
  let walletAddress := useAddress env in
  useMutation
    (fun data =>
       invariant (truthy walletAddress) "no wallet connected, cannot create listing" ;;
       contract <- requiredParamInvariant contract "No Contract instance provided" ;;
       d <- get_direct contract ;;
       invariant (direct_createListing d)
         "contract does not support auction.createListing" ;;
       a <- get_auction contract ;;
       invoke contract (auction_createListing a) "contract.auction.createListing"
         (AuctionCreateListing data))
    (invalidateContractAndBalances contractAddress activeChainId).

Definition useCancelListing (contract : RequiredParam Marketplace)
    : Mutation ListingRef :=
  let activeChainId := useSDKChainId env in
  let contractAddress := option_map getAddress contract in
  useMutation
    (fun data =>
       if ListingType_eqb (lr_type data) Auction then
         (* contract?.auction.cancelListing(data.id) *)
         match contract with
         | None => ret JsUndefined
         | Some contract =>
             a <- get_auction contract ;;
             invoke contract (auction_cancelListing a) "contract.auction.cancelListing"
               (AuctionCancelListing (lr_id data))
         end
       else
         (* contract?.direct.cancelListing(data.id) *)
         match contract with
         | None => ret JsUndefined
         | Some contract =>
             d <- get_direct contract ;;
             invoke contract (direct_cancelListing d) "contract.direct.cancelListing"
               (DirectCancelListing (lr_id data))
         end)
    (invalidateContractAndBalances contractAddress activeChainId).

Definition useMakeBid (contract : RequiredParam Marketplace)
    : Mutation MakeBidParams :=
  let activeChainId := useSDKChainId env in
  let contractAddress := option_map getAddress contract in
  let walletAddress := useAddress env in
  useMutation
    (fun data =>
       invariant (truthy walletAddress) "no wallet connected, cannot make bid" ;;
       contract <- requiredParamInvariant contract "No Contract instance provided" ;;
       a <- get_auction contract ;;
       invariant (auction_makeBid a) "contract does not support auction.makeBid" ;;
       a <- get_auction contract ;;
       invoke contract (auction_makeBid a) "contract.auction.makeBid"
         (AuctionMakeBid (mb_listingId data) (mb_bid data)))
    (invalidateContractAndBalances contractAddress activeChainId).

Definition useMakeOffer (contract : RequiredParam Marketplace)
    : Mutation MakeOfferParams :=
  let activeChainId := useSDKChainId env in
  let contractAddress := option_map getAddress contract in
  let walletAddress := useAddress env in
  useMutation
    (fun data =>
       invariant (truthy walletAddress) "no wallet connected, cannot make bid" ;;
       contract <- requiredParamInvariant contract "No Contract instance provided" ;;
       call contract
         (MakeOffer (mo_listingId data) (mo_pricePerToken data) (mo_quantity data)))
    (invalidateContractAndBalances contractAddress activeChainId).

Definition useAcceptDirectListingOffer (contract : RequiredParam Marketplace)
    : Mutation AcceptDirectOffer :=
  let activeChainId := useSDKChainId env in
  let contractAddress := option_map getAddress contract in
  let walletAddress := useAddress env in
  useMutation
    (fun data =>
       invariant (truthy walletAddress) "no wallet connected, cannot make bid" ;;
       (* requiredParamInvariant(contract?.direct, ...) *)
       d <- requiredParamInvariant
              (match contract with Some c => direct c | None => None end)
              "No Direct instance provided" ;;
       (* past the check [contract] is known to be present *)
       contract <- requiredParamInvariant contract "No Direct instance provided" ;;
       invoke contract (direct_acceptOffer d) "contract.direct.acceptOffer"
         (DirectAcceptOffer (ao_listingId data) (ao_addressOfOfferor data)))
    (invalidateContractAndBalances contractAddress activeChainId).

Definition useExecuteAuctionSale (contract : RequiredParam Marketplace)
    : Mutation ExecuteAuctionSale :=
  let activeChainId := useSDKChainId env in
  let contractAddress := option_map getAddress contract in
  let walletAddress := useAddress env in
  useMutation
    (fun data =>
       invariant (truthy walletAddress) "no wallet connected, cannot make bid" ;;
       (* requiredParamInvariant(contract?.auction, ...) *)
       a <- requiredParamInvariant
              (match contract with Some c => auction c | None => None end)
              "No Auction marketplace instance provided" ;;
       contract <- requiredParamInvariant contract
                     "No Auction marketplace instance provided" ;;
       invoke contract (auction_executeSale a) "contract.auction.executeSale"
         (AuctionExecuteSale (es_listingId data)))
    (invalidateContractAndBalances contractAddress activeChainId).

Definition useBuyNow (contract : RequiredParam Marketplace)
    : Mutation BuyNowParams :=
  let activeChainId := useSDKChainId env in
  let contractAddress := option_map getAddress contract in
  let walletAddress := useAddress env in
  useMutation
    (fun data =>
       invariant (truthy walletAddress) "no wallet connected, cannot make bid" ;;
       contract <- requiredParamInvariant contract "No Contract instance provided" ;;
       if ListingType_eqb (bn_type data) Direct then
         d <- get_direct contract ;;
         invariant (direct_buyoutListing d)
           "contract does not support direct.buyoutListing" ;;
         d <- get_direct contract ;;
         invoke contract (direct_buyoutListing d) "contract.direct.buyoutListing"
           (DirectBuyoutListing (bn_id data) (bn_buyAmount data) (bn_buyForWallet data))
       else
         a <- get_auction contract ;;
         invariant (auction_buyoutListing a)
           "contract does not support auction.buyoutListing" ;;
         a <- get_auction contract ;;
         invoke contract (auction_buyoutListing a) "contract.auction.buyoutListing"
           (AuctionBuyoutListing (bn_id data)))
    (invalidateContractAndBalances contractAddress activeChainId).

End WriteHooks.

(** ** Offers of a listing: a filtered view of the NewOffer events *)

(** [ev.data] of a NewOffer event; [listingId] is an ethers BigNumber. *)
Record OfferData :=
  { listingId : Z;
    offeror : string;
    payload : JsValue }.

Record ContractEvent := { eventName : string; data : OfferData }.

(** [BigNumber.from(value)] rejects [undefined]. *)
Definition BigNumber_from (v : RequiredParam BigNumberish) : Exn + Z :=
  match v with
  | Some n => inr n
  | None => inl (TypeError "invalid BigNumber value")
  end.

(** [a.eq(other)]: [other] is converted, then compared as integers. *)
Definition BigNumber_eq (a : Z) (other : RequiredParam BigNumberish) : Exn + bool :=
  match BigNumber_from other with
  | inr b => inr (Z.eqb a b)
  | inl e => inl e
  end.

(** [Array.prototype.filter] with a predicate that may throw. *)
Fixpoint js_filter {A} (p : A -> Exn + bool) (l : list A) : Exn + list A :=
  match l with
  | [] => inr []
  | x :: l' =>
      match p x with
      | inl e => inl e
      | inr keep =>
          match js_filter p l' with
          | inl e => inl e
          | inr r => inr (if keep then x :: r else r)
          end
      end
  end.

(** [useOffers]: [result] is what [useContractEvents(contract, "NewOffer")]
    returned; its [data] is absent until the events arrive.  The value is
    the [data] field of the hook's result. *)
Definition useOffers (result_data : option (list ContractEvent))
    (listingId' : RequiredParam BigNumberish) : Exn + option (list OfferData) :=
  match result_data with
  | None => inr None
  | Some evs =>
      match js_filter (fun ev => BigNumber_eq (listingId (data ev)) listingId') evs with
      | inl e => inl e
      | inr kept => inr (Some (map data kept))
      end
  end.

(** ** The hooks as families *)

(** The eight read hooks with their operation-specific parameters. *)
Inductive ReadOp :=
| OpListing (listingId : RequiredParam BigNumberish)
| OpListings (filter : option JsValue)
| OpListingsCount
| OpActiveListings (filter : option JsValue)
| OpWinningBid (listingId : RequiredParam BigNumberish)
| OpAuctionWinner (listingId : RequiredParam BigNumberish)
| OpBidBuffer
| OpMinimumNextBid (listingId : RequiredParam BigNumberish).

Definition readHook (cacheKeys : CacheKeys) (contract : RequiredParam Marketplace)
    (op : ReadOp) : Query :=
  match op with
  | OpListing id => useListing cacheKeys contract id
  | OpListings f => useListings cacheKeys contract f
  | OpListingsCount => useListingsCount cacheKeys contract
  | OpActiveListings f => useActiveListings cacheKeys contract f
  | OpWinningBid id => useWinningBid cacheKeys contract id
  | OpAuctionWinner id => useAuctionWinner cacheKeys contract id
  | OpBidBuffer => useBidBuffer cacheKeys contract
  | OpMinimumNextBid id => useMinimumNextBid cacheKeys contract id
  end.

(** The eight write hooks and the input each mutation takes. *)
Inductive WriteOp :=
| OpCreateDirectListing
| OpCreateAuctionListing
| OpCancelListing
| OpMakeBid
| OpMakeOffer
| OpAcceptDirectListingOffer
| OpExecuteAuctionSale
| OpBuyNow.

Definition WriteInput (op : WriteOp) : Type :=
  match op with
  | OpCreateDirectListing | OpCreateAuctionListing => JsValue
  | OpCancelListing => ListingRef
  | OpMakeBid => MakeBidParams
  | OpMakeOffer => MakeOfferParams
  | OpAcceptDirectListingOffer => AcceptDirectOffer
  | OpExecuteAuctionSale => ExecuteAuctionSale
  | OpBuyNow => BuyNowParams
  end.

Definition writeHook (env : Env) (contract : RequiredParam Marketplace)
    (op : WriteOp) : Mutation (WriteInput op) :=
  match op with
  | OpCreateDirectListing => useCreateDirectListing env contract
  | OpCreateAuctionListing => useCreateAuctionListing env contract
  | OpCancelListing => useCancelListing env contract
  | OpMakeBid => useMakeBid env contract
  | OpMakeOffer => useMakeOffer env contract
  | OpAcceptDirectListingOffer => useAcceptDirectListingOffer env contract
  | OpExecuteAuctionSale => useExecuteAuctionSale env contract
  | OpBuyNow => useBuyNow env contract
  end.

(** ** Sample handles used by the examples *)

Definition allDirect : MarketplaceDirect :=
  {| direct_createListing := true; direct_cancelListing := true;
     direct_acceptOffer := true; direct_buyoutListing := true |}.

Definition allAuction : MarketplaceAuction :=
  {| auction_getWinningBid := true; auction_getWinner := true;
     auction_getMinimumNextBid := true; auction_createListing := true;
     auction_cancelListing := true; auction_makeBid := true;
     auction_executeSale := true; auction_buyoutListing := true |}.

(** A marketplace with every method, whose calls all resolve. *)
Definition marketplace (prov : ProviderCall -> Outcome) : Marketplace :=
  {| getAddress := "0xMarket"; direct := Some allDirect;
     auction := Some allAuction; provider := prov |}.

Definition resolving : ProviderCall -> Outcome :=
  fun _ => Resolves (JsObject "receipt").

(** A provider without an auction for any listing. *)
Definition no_auction : ProviderCall -> Outcome :=
  fun c =>
    match c with
    | AuctionGetWinner _ =>
        Rejects (ThrownError (Some "Could not find auction with ID: 7"))
    | _ => Rejects (ThrownError (Some "execution reverted"))
    end.

(** Modelled from the spec: the table [cacheKeys] of utils/cache-keys is
    not among the sources; section 3 makes a key the tuple (domain,
    resourceAddress, operationName, serialized parameters). *)
Definition spec_cacheKeys : CacheKeys :=
  {| ck_getListing a id :=
       [KText "contract"; KAddress a; KText "getListing"; KId id];
     ck_getAllListings a f :=
       [KText "contract"; KAddress a; KText "getAllListings"; KFilter f];
     ck_getTotalCount a :=
       [KText "contract"; KAddress a; KText "getTotalCount"];
     ck_getActiveListings a f :=
       [KText "contract"; KAddress a; KText "getActiveListings"; KFilter f];
     ck_getBidBufferBps a :=
       [KText "contract"; KAddress a; KText "getBidBufferBps"];
     ck_auction_getWinningBid a id :=
       [KText "contract"; KAddress a; KText "auction"; KText "getWinningBid"; KId id];
     ck_auction_getWinner a id :=
       [KText "contract"; KAddress a; KText "auction"; KText "getWinner"; KId id] |}.

(** ** Vocabulary of the specification *)

(** [needle] occurs in [msg]. *)
Definition contains (needle msg : string) : Prop :=
  exists pre post, msg = (pre ++ needle ++ post)%string.

(** The message of a rejection, when it has one. *)
Definition thrown_message (err : Thrown) : option string :=
  match err with
  | ThrownNullish => None
  | ThrownError m => m
  end.

(** The failures of section 7 of the spec, recognised by the guard that
    throws them: the source tells them apart by message only. *)
Definition is_unauthenticated (e : Exn) : bool :=
  match e with
  | InvariantError m => JsString.startsWith "no wallet connected" m
  | _ => false
  end.

Definition is_missing_resource (e : Exn) : bool :=
  match e with
  | RequiredParamError m =>
      String.eqb m "No Contract instance provided"
      || String.eqb m "No Direct instance provided"
      || String.eqb m "No Auction marketplace instance provided"
  | _ => false
  end.

Definition is_unsupported_operation (e : Exn) : bool :=
  match e with
  | InvariantError m => JsString.startsWith "contract does not support" m
  | _ => false
  end.

(** A handle on which auction listings can be created and direct ones
    cannot, and the reverse. *)
Definition auctionOnlyCreate : Marketplace :=
  {| getAddress := "0xMarket";
     direct := Some {| direct_createListing := false; direct_cancelListing := true;
                       direct_acceptOffer := true; direct_buyoutListing := true |};
     auction := Some allAuction;
     provider := resolving |}.

Definition directOnlyCreate : Marketplace :=
  {| getAddress := "0xMarket";
     direct := Some allDirect;
     auction := Some {| auction_getWinningBid := true; auction_getWinner := true;
                        auction_getMinimumNextBid := true;
                        auction_createListing := false;
                        auction_cancelListing := true; auction_makeBid := true;
                        auction_executeSale := true; auction_buyoutListing := true |};
     provider := resolving |}.

Definition connected (chainId : option Z) : Env :=
  {| useSDKChainId := chainId; useAddress := Some "0xWallet" |}.

Definition disconnected (chainId : option Z) : Env :=
  {| useSDKChainId := chainId; useAddress := None |}.

(** ** Expected provider calls *)

(** The provider call a read hook makes with its parameters; none while a
    required listing id is absent. *)
Definition readCall (op : ReadOp) : option ProviderCall :=
  match op with
  | OpListing id => option_map GetListing id
  | OpListings f => Some (GetAllListings f)
  | OpListingsCount => Some GetTotalCount
  | OpActiveListings f => Some (GetActiveListings f)
  | OpWinningBid id => option_map AuctionGetWinningBid id
  | OpAuctionWinner id => option_map AuctionGetWinner id
  | OpBidBuffer => Some GetBidBufferBps
  | OpMinimumNextBid id => option_map AuctionGetMinimumNextBid id
  end.

(** The provider call a write hook makes with the fields of its input. *)
Definition writeCall (op : WriteOp) : WriteInput op -> ProviderCall :=
  match op with
  | OpCreateDirectListing => fun data => DirectCreateListing data
  | OpCreateAuctionListing => fun data => AuctionCreateListing data
  | OpCancelListing => fun data =>
      match lr_type data with
      | Auction => AuctionCancelListing (lr_id data)
      | Direct => DirectCancelListing (lr_id data)
      end
  | OpMakeBid => fun data => AuctionMakeBid (mb_listingId data) (mb_bid data)
  | OpMakeOffer => fun data =>
      MakeOffer (mo_listingId data) (mo_pricePerToken data) (mo_quantity data)
  | OpAcceptDirectListingOffer => fun data =>
      DirectAcceptOffer (ao_listingId data) (ao_addressOfOfferor data)
  | OpExecuteAuctionSale => fun data => AuctionExecuteSale (es_listingId data)
  | OpBuyNow => fun data =>
      match bn_type data with
      | Direct =>
          DirectBuyoutListing (bn_id data) (bn_buyAmount data) (bn_buyForWallet data)
      | Auction => AuctionBuyoutListing (bn_id data)
      end
  end.

(** A handle with every method of both sub-modules. *)
Definition fully_capable (c : Marketplace) : Prop :=
  direct c = Some allDirect /\ auction c = Some allAuction.

(** How a query reports a settled provider promise. *)
Definition query_outcome (o : Outcome) : QueryResult :=
  match o with
  | Resolves v => QData v
  | Rejects err => QError (ProviderError err)
  end.

(** How a mutation reports a settled provider promise. *)
Definition mutation_outcome (o : Outcome) : Exn + JsValue :=
  match o with
  | Resolves v => inr v
  | Rejects err => inl (ProviderError err)
  end.

(** The write hooks whose mutation function starts with the wallet and
    handle guards: all but [useCancelListing]. *)
Definition guarded (op : WriteOp) : bool :=
  match op with
  | OpCancelListing => false
  | _ => true
  end.

(** A NewOffer event for a listing. *)
Definition newOffer (id : Z) (who : string) : ContractEvent :=
  {| eventName := "NewOffer";
     data := {| listingId := id; offeror := who; payload := JsUndefined |} |}.

(** ** The 3D model component

    Source: packages/react/src/evm/components/ModelViewer.tsx *)

Module ModelViewer.

(** A CSS style object: property/value pairs. *)
Definition Style := list (string * string).

(** The props the component destructures from [MediaRendererProps]. *)
Record Props :=
  { src : option string;
    alt : option string;
    style : option Style;
    poster : option string }.

(** The [<model-viewer>] element with the attributes the component sets. *)
Record ModelViewerElement :=
  { el_src : string;
    el_alt : string;
    el_camera_controls : bool;
    el_poster : option string;
    el_style : Style }.

(** The rendered [<div>]: its style and its only child, which is the
    viewer or [null]. *)
Record Div :=
  { div_style : Style;
    div_child : option ModelViewerElement }.

(** [{ ...style }] *)
Definition spread (s : option Style) : Style :=
  match s with
  | Some st => st
  | None => []
  end.

(** [a || b] on [string | undefined] *)
Definition js_or (a : option string) (b : string) : string :=
  match a with
  | Some x => if truthy (Some x) then x else b
  | None => b
  end.

Definition ModelViewer (props : Props) : Div :=
  {| div_style := spread (style props);
     div_child :=
       match src props with
       | Some s =>
           if truthy (Some s) then
             Some {| el_src := s;
                     el_alt := js_or (alt props) "3D Model";
                     el_camera_controls := true;
                     el_poster := if truthy (poster props) then poster props else None;
                     el_style := [("height", "100%"); ("width", "100%")] |}
           else None
       | None => None
       end |}.

End ModelViewer.

(** ** Chain metadata and the configuration context

    Sources: packages/chains/chains/1422.ts and the configuration context
    provider of the React package. *)

Module Config.

Record NativeCurrency :=
  { nc_name : string; nc_symbol : string; nc_decimals : Z }.

Record Explorer :=
  { ex_name : string; ex_url : string; ex_standard : string }.

Record Chain :=
  { name : string;
    title : string;
    chain : string;
    rpc : list string;
    faucets : list string;
    nativeCurrency : NativeCurrency;
    infoURL : string;
    shortName : string;
    chainId : Z;
    networkId : Z;
    explorers : list Explorer;
    testnet : bool;
    slug : string }.

(** chains/1422.ts *)
Definition c1422 : Chain :=
  {| name := "Polygon zkEVM Testnet";
     title := "Polygon zkEVM Testnet";
     chain := "Polygon";
     rpc := ["https://polygon-zkevm-testnet.rpc.thirdweb.com/${THIRDWEB_API_KEY}";
             "https://rpc.public.zkevm-test.net"];
     faucets := [];
     nativeCurrency := {| nc_name := "Ether"; nc_symbol := "ETH"; nc_decimals := 18 |};
     infoURL := "https://polygon.technology/solutions/polygon-zkevm/";
     shortName := "testnet-zkEVM-mango";
     chainId := 1422;
     networkId := 1422;
     explorers := [{| ex_name := "Polygon zkEVM explorer";
                      ex_url := "https://explorer.public.zkevm-test.net";
                      ex_standard := "EIP3091" |}];
     testnet := true;
     slug := "polygon-zkevm-testnet" |}.

Record ThirdwebConfigContext :=
  { chains : list Chain;
    thirdwebApiKey : option string;
    alchemyApiKey : option string;
    infuraApiKey : option string }.

(** The part of a React tree that matters to the context: consumers
    (components calling [useThirdwebConfigContext]), providers wrapping
    their children, and siblings. *)
Inductive ReactNode :=
| Null
| Consumer
| Siblings (a b : ReactNode)
| ThirdwebConfigProvider (value : ThirdwebConfigContext) (children : ReactNode).

Section Context.

(** [defaultChains] of the chains package, not among the sources. *)
Variable defaultChains : list Chain.

(** [createContext<ThirdwebConfigContext>({ chains: defaultChains })] *)
Definition defaultContext : ThirdwebConfigContext :=
  {| chains := defaultChains;
     thirdwebApiKey := None;
     alchemyApiKey := None;
     infuraApiKey := None |}.

(** [useThirdwebConfigContext()] returns [useContext] of the context: the
    value of the nearest enclosing provider, here passed down as
    [current]. *)
Definition useThirdwebConfigContext (current : ThirdwebConfigContext)
    : ThirdwebConfigContext := current.

(** What the consumers of a tree read, in tree order, under the context
    value [current]. *)
Fixpoint reads (current : ThirdwebConfigContext) (n : ReactNode)
    : list ThirdwebConfigContext :=
  match n with
  | Null => []
  | Consumer => [useThirdwebConfigContext current]
  | Siblings a b => reads current a ++ reads current b
  | ThirdwebConfigProvider value children => reads value children
  end.

(** Rendering a tree at the root: no provider is in scope yet. *)
Definition render (n : ReactNode) : list ThirdwebConfigContext :=
  reads defaultContext n.

End Context.

(** The values the providers of a tree supply. *)
Fixpoint provided (n : ReactNode) : list ThirdwebConfigContext :=
  match n with
  | Null | Consumer => []
  | Siblings a b => provided a ++ provided b
  | ThirdwebConfigProvider value children => value :: provided children
  end.

Fixpoint consumers (n : ReactNode) : nat :=
  match n with
  | Null => O
  | Consumer => 1%nat
  | Siblings a b => (consumers a + consumers b)%nat
  | ThirdwebConfigProvider _ children => consumers children
  end.

End Config.

(** * Properties *)

(** ** Strings *)

Lemma startsWith_app (p s : string) :
  JsString.startsWith p s = true <-> exists post, s = (p ++ post)%string.
Proof.
  revert s; induction p as [|a p IH]; intros s; simpl.
  - split; [intros _; now exists s | reflexivity].
  - destruct s as [|b s].
    + split; [discriminate | intros [post H]; discriminate].
    + rewrite andb_true_iff, Ascii.eqb_eq, IH. split.
      * intros [-> [post ->]]. now exists post.
      * intros [post H]. injection H as -> ->. split; [reflexivity | now exists post].
Qed.

Lemma includes_occurs (sub s : string) :
  JsString.includes sub s = true <->
  exists pre post, s = (pre ++ sub ++ post)%string.
Proof.
  induction s as [|b s IH]; simpl JsString.includes.
  - rewrite orb_false_r, startsWith_app. split.
    + intros [post H]. now exists EmptyString, post.
    + intros [pre [post H]]. destruct pre; [now exists post | discriminate].
  - rewrite orb_true_iff, startsWith_app, IH. split.
    + intros [[post H] | [pre [post H]]].
      * now exists EmptyString, post.
      * exists (String b pre), post. simpl. now rewrite H.
    + intros [pre [post H]]. destruct pre as [|c pre]; simpl in H.
      * left. now exists post.
      * right. injection H as _ ->. now exists pre, post.
Qed.

(** ** Cache keys *)

(** Under the key table of the spec two auction reads with different
    derivers get different keys. *)
Lemma spec_keys_winningBid_vs_winner (c : Marketplace) (id : BigNumberish) :
  queryKey (useWinningBid spec_cacheKeys (Some c) (Some id)) <>
  queryKey (useAuctionWinner spec_cacheKeys (Some c) (Some id)).
Proof. simpl. discriminate. Qed.

(** The two hooks are different queries: they reach different provider
    methods. *)
Example minimumNextBid_and_winner_fetch_differently :
  fst (runQuery (useMinimumNextBid spec_cacheKeys (Some (marketplace resolving)) (Some 7)))
    = [Called (AuctionGetMinimumNextBid 7)] /\
  fst (runQuery (useAuctionWinner spec_cacheKeys (Some (marketplace resolving)) (Some 7)))
    = [Called (AuctionGetWinner 7)].
Proof. split; reflexivity. Qed.

(** C1 (the code departs from the claim): whatever the key table,
    [useMinimumNextBid] files its query under the key of
    [useAuctionWinner] for the same contract and listing id, because it
    derives the key with [auction.getWinner]. *)
Theorem useMinimumNextBid_shares_key_with_useAuctionWinner
    (cacheKeys : CacheKeys) (contract : RequiredParam Marketplace)
    (listingId : RequiredParam BigNumberish) :
  queryKey (useMinimumNextBid cacheKeys contract listingId) =
  queryKey (useAuctionWinner cacheKeys contract listingId).
Proof. reflexivity. Qed.

(** ** Reads with an absent handle *)

(** C6: a read hook given no contract handle builds a disabled query;
    running it reaches no provider method and reports the pending state,
    not an error. *)
Theorem read_without_contract_is_disabled
    (cacheKeys : CacheKeys) (op : ReadOp) :
  let q := readHook cacheKeys None op in
  enabled (options q) = false /\
  runQuery q = ([], QPending) /\
  calls (fst (runQuery q)) = [].
Proof. destruct op; cbn; repeat split; reflexivity. Qed.

(** Even if the engine ran such a fetcher, the handle check comes before
    any provider call. *)
Lemma read_fetcher_guards_contract (cacheKeys : CacheKeys) (op : ReadOp) :
  queryFn (readHook cacheKeys None op) =
  ([], inl (RequiredParamError "No Contract instance provided")).
Proof. destruct op; reflexivity. Qed.

(** ** Reads with an absent listing id *)

(** C10: with a contract but no listing id, [useWinningBid],
    [useAuctionWinner] and [useMinimumNextBid] are disabled and stay
    pending without a provider call, while [useListing] is enabled, its
    fetcher throws "No listing id provided" and the query is in the error
    state. *)
Theorem absent_listingId_is_handled_inconsistently
    (cacheKeys : CacheKeys) (contract : Marketplace) :
  (enabled (options (useWinningBid cacheKeys (Some contract) None)) = false /\
   runQuery (useWinningBid cacheKeys (Some contract) None) = ([], QPending)) /\
  (enabled (options (useAuctionWinner cacheKeys (Some contract) None)) = false /\
   runQuery (useAuctionWinner cacheKeys (Some contract) None) = ([], QPending)) /\
  (enabled (options (useMinimumNextBid cacheKeys (Some contract) None)) = false /\
   runQuery (useMinimumNextBid cacheKeys (Some contract) None) = ([], QPending)) /\
  (enabled (options (useListing cacheKeys (Some contract) None)) = true /\
   runQuery (useListing cacheKeys (Some contract) None) =
     ([], QError (RequiredParamError "No listing id provided"))).
Proof. repeat split; reflexivity. Qed.

(** ** Settlement of a mutation *)

Lemma mutateAsync_settled {D} (m : Mutation D) (data : D)
    (a : option string) (chainId : option Z) :
  onSettled m = invalidateContractAndBalances a chainId ->
  mutateAsync m data =
    (log_of (mutationFn m data) ++ [Invalidated a chainId],
     result_of (mutationFn m data)).
Proof.
  intros H. unfold mutateAsync. rewrite H.
  destruct (mutationFn m data) as [l [e | v]]; reflexivity.
Qed.

(** C4: every write hook configures [onSettled] as the invalidation for
    the contract address and the active chain id; a mutation run through
    the engine logs that invalidation after whatever the mutation function
    did, whether it resolved or rejected, and the caller still gets the
    mutation function's own result. *)
Theorem write_settlement_invalidates
    (env : Env) (contract : RequiredParam Marketplace)
    (op : WriteOp) (data : WriteInput op) :
  let m := writeHook env contract op in
  let invalidation :=
    Invalidated (option_map getAddress contract) (useSDKChainId env) in
  onSettled m =
    invalidateContractAndBalances (option_map getAddress contract) (useSDKChainId env) /\
  log_of (mutateAsync m data) = log_of (mutationFn m data) ++ [invalidation] /\
  result_of (mutateAsync m data) = result_of (mutationFn m data).
Proof.
  intros m invalidation.
  assert (Hs : onSettled m =
    invalidateContractAndBalances (option_map getAddress contract) (useSDKChainId env))
    by (destruct op; reflexivity).
  split; [exact Hs|].
  rewrite (mutateAsync_settled m data Hs). split; reflexivity.
Qed.

(** A rejected provider call is followed by the invalidation. *)
Example failed_bid_still_invalidates :
  mutateAsync (useMakeBid (connected (Some 1)) (Some (marketplace no_auction)))
    {| mb_listingId := 7; mb_bid := JsBigNumber 2 |} =
  ([Called (AuctionMakeBid 7 (JsBigNumber 2)); Invalidated (Some "0xMarket") (Some 1)],
   inl (ProviderError (ThrownError (Some "execution reverted")))).
Proof. reflexivity. Qed.

(** ** The tolerated failure of [useAuctionWinner] *)

Lemma message_includes_provider (err : Thrown) (needle : string) :
  message_includes (ProviderError err) needle = true <->
  exists msg, thrown_message err = Some msg /\ contains needle msg.
Proof.
  unfold message_includes, contains.
  destruct err as [|[msg|]]; simpl.
  - split; [discriminate | intros [msg [H _]]; discriminate].
  - rewrite includes_occurs. split.
    + intros H. now exists msg.
    + intros [msg' [H H']]. now injection H as ->.
  - split; [discriminate | intros [msg [H _]]; discriminate].
Qed.

(** C5: when [auction.getWinner] rejects, [useAuctionWinner] resolves with
    data [undefined] if the rejection has a message containing
    "Could not find auction", and otherwise ends in the error state with
    the rejection itself. *)
Theorem useAuctionWinner_tolerates_missing_auction
    (cacheKeys : CacheKeys) (contract : Marketplace) (a : MarketplaceAuction)
    (listingId : BigNumberish) (err : Thrown)
    (Hauction : auction contract = Some a)
    (Hmethod : auction_getWinner a = true)
    (Hrejects : provider contract (AuctionGetWinner listingId) = Rejects err) :
  let q := useAuctionWinner cacheKeys (Some contract) (Some listingId) in
  ((exists msg, thrown_message err = Some msg /\
                contains "Could not find auction" msg) ->
   runQuery q = ([Called (AuctionGetWinner listingId)], QData JsUndefined)) /\
  (~ (exists msg, thrown_message err = Some msg /\
                  contains "Could not find auction" msg) ->
   runQuery q = ([Called (AuctionGetWinner listingId)], QError (ProviderError err))).
Proof.
  intros q.
  assert (Hrun : runQuery q =
    if message_includes (ProviderError err) "Could not find auction"
    then ([Called (AuctionGetWinner listingId)], QData JsUndefined)
    else ([Called (AuctionGetWinner listingId)], QError (ProviderError err))).
  { unfold q, runQuery, useAuctionWinner, useQueryWithNetwork, get_auction, invoke.
    cbn -[message_includes]. rewrite Hauction. cbn -[message_includes].
    rewrite Hmethod, Hrejects. cbn -[message_includes].
    destruct (message_includes (ProviderError err) "Could not find auction");
      reflexivity. }
  rewrite Hrun. split; intros H.
  - apply message_includes_provider in H. now rewrite H.
  - destruct (message_includes (ProviderError err) "Could not find auction") eqn:E;
      [|reflexivity].
    apply message_includes_provider in E. contradiction.
Qed.

Lemma useAuctionWinner_tolerates_missing_auction_witness :
  runQuery (useAuctionWinner spec_cacheKeys (Some (marketplace no_auction)) (Some 7)) =
    ([Called (AuctionGetWinner 7)], QData JsUndefined).
Proof.
  apply (@useAuctionWinner_tolerates_missing_auction spec_cacheKeys
           (marketplace no_auction) allAuction 7
           (ThrownError (Some "Could not find auction with ID: 7"))
           eq_refl eq_refl eq_refl).
  exists "Could not find auction with ID: 7". split; [reflexivity|].
  exists "", " with ID: 7". reflexivity.
Defined.

(** Another rejection of the same call surfaces as the error. *)
Example useAuctionWinner_other_rejection :
  runQuery (useAuctionWinner spec_cacheKeys
              (Some (marketplace (fun _ => Rejects (ThrownError (Some "network error")))))
              (Some 7)) =
    ([Called (AuctionGetWinner 7)],
     QError (ProviderError (ThrownError (Some "network error")))).
Proof. reflexivity. Qed.

(** ** Dispatch on the listing type *)

(** C7: cancel and buy-now pick the provider path from the type tag of
    the input.  With a wallet connected and the methods present on the
    handle, the provider calls of the mutation are exactly the one call of
    the tag, so the path of the other tag is not called:
    [auction.cancelListing(id)] for Auction and [direct.cancelListing(id)]
    for Direct in [useCancelListing];
    [direct.buyoutListing(id, buyAmount, buyForWallet)] for Direct and
    [auction.buyoutListing(id)] for Auction in [useBuyNow]. *)
Theorem cancel_and_buyNow_dispatch_on_type
    (env : Env) (contract : Marketplace)
    (d : MarketplaceDirect) (a : MarketplaceAuction)
    (id : BigNumberish) (buyAmount : option BigNumberish)
    (buyForWallet : option string)
    (Hwallet : truthy (useAddress env) = true)
    (Hdirect : direct contract = Some d)
    (Hauction : auction contract = Some a)
    (Hdc : direct_cancelListing d = true)
    (Hdb : direct_buyoutListing d = true)
    (Hac : auction_cancelListing a = true)
    (Hab : auction_buyoutListing a = true) :
  calls (log_of (mutateAsync (useCancelListing env (Some contract))
                   {| lr_type := Auction; lr_id := id |}))
    = [AuctionCancelListing id] /\
  calls (log_of (mutateAsync (useCancelListing env (Some contract))
                   {| lr_type := Direct; lr_id := id |}))
    = [DirectCancelListing id] /\
  calls (log_of (mutateAsync (useBuyNow env (Some contract))
                   {| bn_id := id; bn_type := Direct;
                      bn_buyAmount := buyAmount; bn_buyForWallet := buyForWallet |}))
    = [DirectBuyoutListing id buyAmount buyForWallet] /\
  calls (log_of (mutateAsync (useBuyNow env (Some contract))
                   {| bn_id := id; bn_type := Auction;
                      bn_buyAmount := buyAmount; bn_buyForWallet := buyForWallet |}))
    = [AuctionBuyoutListing id].
Proof.
  unfold mutateAsync, useCancelListing, useBuyNow, useMutation, get_direct,
    get_auction, invoke, invariant.
  cbn. rewrite Hwallet, Hdirect, Hauction. cbn.
  rewrite Hdc, Hdb, Hac, Hab. cbn.
  repeat split.
  - destruct (provider contract (AuctionCancelListing id)); reflexivity.
  - destruct (provider contract (DirectCancelListing id)); reflexivity.
  - destruct (provider contract (DirectBuyoutListing id buyAmount buyForWallet));
      reflexivity.
  - destruct (provider contract (AuctionBuyoutListing id)); reflexivity.
Qed.

Lemma cancel_and_buyNow_dispatch_on_type_witness :
  calls (log_of (mutateAsync
                   (useCancelListing (connected (Some 1)) (Some (marketplace resolving)))
                   {| lr_type := Auction; lr_id := 7 |}))
    = [AuctionCancelListing 7] /\
  calls (log_of (mutateAsync
                   (useCancelListing (connected (Some 1)) (Some (marketplace resolving)))
                   {| lr_type := Direct; lr_id := 7 |}))
    = [DirectCancelListing 7] /\
  calls (log_of (mutateAsync
                   (useBuyNow (connected (Some 1)) (Some (marketplace resolving)))
                   {| bn_id := 7; bn_type := Direct;
                      bn_buyAmount := Some 1; bn_buyForWallet := None |}))
    = [DirectBuyoutListing 7 (Some 1) None] /\
  calls (log_of (mutateAsync
                   (useBuyNow (connected (Some 1)) (Some (marketplace resolving)))
                   {| bn_id := 7; bn_type := Auction;
                      bn_buyAmount := Some 1; bn_buyForWallet := None |}))
    = [AuctionBuyoutListing 7].
Proof.
  exact (@cancel_and_buyNow_dispatch_on_type (connected (Some 1))
           (marketplace resolving) allDirect allAuction 7 (Some 1) None
           eq_refl eq_refl eq_refl eq_refl eq_refl eq_refl eq_refl).
Defined.

(** The path of the other tag is never taken, whatever the wallet, the
    handle and the provider. *)
Lemma cancel_never_takes_other_path
    (env : Env) (contract : RequiredParam Marketplace) (id : BigNumberish) :
  incl (calls (log_of (mutateAsync (useCancelListing env contract)
                         {| lr_type := Auction; lr_id := id |})))
       [AuctionCancelListing id] /\
  incl (calls (log_of (mutateAsync (useCancelListing env contract)
                         {| lr_type := Direct; lr_id := id |})))
       [DirectCancelListing id].
Proof.
  unfold mutateAsync, useCancelListing, useMutation, get_direct, get_auction, invoke.
  destruct contract as [c|]; cbn.
  - destruct (auction c) as [a|], (direct c) as [d|]; cbn;
      try destruct (auction_cancelListing a); try destruct (direct_cancelListing d); cbn;
      try destruct (provider c (AuctionCancelListing id));
      try destruct (provider c (DirectCancelListing id)); cbn;
      split; auto using incl_refl, incl_nil_l.
  - split; apply incl_nil_l.
Qed.

Lemma buyNow_never_takes_other_path
    (env : Env) (contract : RequiredParam Marketplace) (id : BigNumberish)
    (buyAmount : option BigNumberish) (buyForWallet : option string) :
  incl (calls (log_of (mutateAsync (useBuyNow env contract)
                         {| bn_id := id; bn_type := Direct;
                            bn_buyAmount := buyAmount;
                            bn_buyForWallet := buyForWallet |})))
       [DirectBuyoutListing id buyAmount buyForWallet] /\
  incl (calls (log_of (mutateAsync (useBuyNow env contract)
                         {| bn_id := id; bn_type := Auction;
                            bn_buyAmount := buyAmount;
                            bn_buyForWallet := buyForWallet |})))
       [AuctionBuyoutListing id].
Proof.
  unfold mutateAsync, useBuyNow, useMutation, get_direct, get_auction, invoke, invariant.
  destruct (truthy (useAddress env)); cbn; [|split; apply incl_nil_l].
  destruct contract as [c|]; cbn; [|split; apply incl_nil_l].
  destruct (auction c) as [a|], (direct c) as [d|]; cbn;
    try destruct (auction_buyoutListing a); try destruct (direct_buyoutListing d); cbn;
    try destruct (provider c (AuctionBuyoutListing id));
    try destruct (provider c (DirectBuyoutListing id buyAmount buyForWallet)); cbn;
    split; auto using incl_refl, incl_nil_l.
Qed.

(** ** Preconditions of the write hooks *)

(** Without a wallet, every write hook other than [useCancelListing]
    fails on its first guard, before any provider call. *)
Lemma guarded_writes_need_wallet
    (env : Env) (contract : RequiredParam Marketplace)
    (op : WriteOp) (data : WriteInput op) :
  op <> OpCancelListing ->
  truthy (useAddress env) = false ->
  exists e,
    mutationFn (writeHook env contract op) data = ([], inl e) /\
    is_unauthenticated e = true.
Proof.
  intros Hop Hw.
  destruct op; try congruence; cbn; unfold invariant; rewrite Hw; cbn;
    eexists; (split; [reflexivity | reflexivity]).
Qed.

(** With a wallet and without a handle, every write hook other than
    [useCancelListing] fails on the handle guard, before any provider
    call. *)
Lemma guarded_writes_need_contract
    (env : Env) (op : WriteOp) (data : WriteInput op) :
  op <> OpCancelListing ->
  truthy (useAddress env) = true ->
  exists e,
    mutationFn (writeHook env None op) data = ([], inl e) /\
    is_missing_resource e = true.
Proof.
  intros Hop Hw.
  destruct op; try congruence; cbn; unfold invariant; rewrite Hw; cbn;
    eexists; (split; [reflexivity | reflexivity]).
Qed.

(** C2 (the code departs from the claim): [useCancelListing] has no wallet
    guard.  With no wallet connected and a handle present, cancelling
    listing [id] reaches [auction.cancelListing(id)] and the mutation
    resolves with the provider's value. *)
Theorem useCancelListing_runs_without_wallet
    (chainId : option Z) (id : BigNumberish) :
  mutateAsync (useCancelListing (disconnected chainId) (Some (marketplace resolving)))
    {| lr_type := Auction; lr_id := id |} =
  ([Called (AuctionCancelListing id); Invalidated (Some "0xMarket") chainId],
   inr (JsObject "receipt")).
Proof. reflexivity. Qed.

(** C8 (the code departs from the claim): [useCancelListing] has no handle
    guard.  Without a handle the optional chain yields [undefined]: no
    provider call is made, but the mutation resolves instead of failing. *)
Theorem useCancelListing_resolves_without_contract
    (env : Env) (data : ListingRef) :
  mutateAsync (useCancelListing env None) data =
  ([Invalidated None (useSDKChainId env)], inr JsUndefined).
Proof. destruct data as [[|] id]; reflexivity. Qed.

(** ** The capability guard of the listing-creation hooks *)

(** [useCreateDirectListing] tests the method it calls. *)
Lemma useCreateDirectListing_checks_its_method (data : JsValue) :
  mutationFn (useCreateDirectListing (connected None) (Some auctionOnlyCreate)) data =
    ([], inl (InvariantError "contract does not support direct.createListing")) /\
  mutationFn (useCreateDirectListing (connected None) (Some directOnlyCreate)) data =
    ([Called (DirectCreateListing data)], inr (JsObject "receipt")).
Proof. split; reflexivity. Qed.

(** C3 (the code departs from the claim): [useCreateAuctionListing] tests
    [contract.direct.createListing] and then calls
    [contract.auction.createListing].  On a handle that can create auction
    listings but not direct ones it refuses with the unsupported error
    without calling; on a handle that can create direct listings but not
    auction ones the guard passes and the call itself fails with a
    TypeError, which is not the unsupported error. *)
Theorem useCreateAuctionListing_checks_direct_createListing (data : JsValue) :
  mutationFn (useCreateAuctionListing (connected None) (Some auctionOnlyCreate)) data =
    ([], inl (InvariantError "contract does not support auction.createListing")) /\
  mutationFn (useCreateAuctionListing (connected None) (Some directOnlyCreate)) data =
    ([], inl (TypeError "contract.auction.createListing is not a function")) /\
  is_unsupported_operation
    (TypeError "contract.auction.createListing is not a function") = false.
Proof. repeat split; reflexivity. Qed.

(** ** Offers of a listing *)

Lemma js_filter_total {A} (p : A -> Exn + bool) (f : A -> bool) (l : list A) :
  (forall x, p x = inr (f x)) ->
  js_filter p l = inr (filter f l).
Proof.
  intros Hp. induction l as [|x l IH]; simpl; [reflexivity|].
  rewrite Hp, IH. now destruct (f x).
Qed.

(** C9: for every list of NewOffer events and every target listing id,
    the data of [useOffers] is the payloads, in order, of exactly the
    events whose listing id equals the target as an integer of arbitrary
    size; a payload is in the view if and only if it is the data of an
    event of the stream with that listing id. *)
Theorem useOffers_keeps_exactly_the_target_listing
    (events : list ContractEvent) (target : BigNumberish) :
  exists view,
    useOffers (Some events) (Some target) = inr (Some view) /\
    view = map data
             (filter (fun ev => Z.eqb (listingId (data ev)) target) events) /\
    (forall offer,
        In offer view <->
        exists ev, In ev events /\ data ev = offer /\ listingId offer = target).
Proof.
  exists (map data
            (filter (fun ev => Z.eqb (listingId (data ev)) target) events)).
  split; [|split; [reflexivity|]].
  - unfold useOffers.
    rewrite (js_filter_total _ (fun ev => Z.eqb (listingId (data ev)) target));
      reflexivity.
  - intros offer. rewrite in_map_iff. split.
    + intros [ev [Hd Hin]]. apply filter_In in Hin as [Hin Heq].
      apply Z.eqb_eq in Heq. exists ev. subst offer. auto.
    + intros [ev [Hin [Hd Heq]]]. exists ev. split; [exact Hd|].
      apply filter_In. split; [exact Hin|]. apply Z.eqb_eq. now rewrite Hd.
Qed.

(** Listing ids beyond 2^53, which a double cannot tell apart, are told
    apart. *)
Example useOffers_big_ids :
  let offer n := {| eventName := "NewOffer";
                    data := {| listingId := n; offeror := "0xBidder";
                               payload := JsUndefined |} |} in
  useOffers (Some [offer 9007199254740993; offer 9007199254740992; offer 5])
            (Some 9007199254740993) =
    inr (Some [data (offer 9007199254740993)]).
Proof. reflexivity. Qed.

(** Offers for listings 5 and 6: only those for 5 are in the view. *)
Example useOffers_five_and_six :
  let offer n who := {| eventName := "NewOffer";
                        data := {| listingId := n; offeror := who;
                                   payload := JsUndefined |} |} in
  useOffers (Some [offer 5 "0xA"; offer 6 "0xB"; offer 5 "0xC"]) (Some 5) =
    inr (Some [data (offer 5 "0xA"); data (offer 5 "0xC")]).
Proof. reflexivity. Qed.

(** * Further properties of the hooks *)

(** Case analysis on everything a hook branches on. *)
Ltac split_handle :=
  repeat match goal with
    | |- context [auction ?c] => destruct (auction c) as [?a|]; cbn
    | |- context [direct ?c] => destruct (direct c) as [?d|]; cbn
    | |- context [match ?f ?a with true => _ | false => _ end] =>
        destruct (f a); cbn
    | |- context [provider ?c ?x] => destruct (provider c x) as [?v|?err]; cbn
    | |- context [if negb (message_includes ?e ?n) then _ else _] =>
        destruct (message_includes e n); cbn
    end.

(** ** Read hooks *)

(** X1: A read hook reaches the provider at most once per run and never
    invalidates: the log of a run is empty or a single provider call. *)
Theorem read_hooks_call_at_most_once
    (cacheKeys : CacheKeys) (contract : RequiredParam Marketplace) (op : ReadOp) :
  fst (runQuery (readHook cacheKeys contract op)) = [] \/
  exists c, fst (runQuery (readHook cacheKeys contract op)) = [Called c].
Proof.
  destruct contract as [c|];
    [|left; destruct op; reflexivity].
  destruct op as [[id|]|f| |f|[id|]|[id|]| |[id|]];
    unfold runQuery, readHook, call, invoke, get_auction; cbn;
    unfold get_auction, invoke; cbn; split_handle; eauto.
Qed.

(** X2: On a handle with every method, a read hook calls the provider method
    of its operation with the listing id or filter it was given, and makes
    no call while a required listing id is absent. *)
Theorem read_hooks_forward_parameters
    (cacheKeys : CacheKeys) (contract : Marketplace) (op : ReadOp)
    (Hcapable : fully_capable contract) :
  fst (runQuery (readHook cacheKeys (Some contract) op)) =
    match readCall op with
    | Some c => [Called c]
    | None => []
    end.
Proof.
  destruct Hcapable as [Hd Ha].
  destruct op as [[id|]|f| |f|[id|]|[id|]| |[id|]];
    unfold runQuery, readHook, call, invoke, get_auction; cbn;
    unfold get_auction, invoke; cbn; rewrite ?Ha; cbn;
    split_handle; reflexivity.
Qed.

Lemma read_hooks_forward_parameters_witness :
  fst (runQuery (readHook spec_cacheKeys (Some (marketplace resolving))
                   (OpListing (Some 42)))) = [Called (GetListing 42)] /\
  fst (runQuery (readHook spec_cacheKeys (Some (marketplace resolving))
                   (OpActiveListings None))) = [Called (GetActiveListings None)].
Proof.
  split.
  - exact (@read_hooks_forward_parameters spec_cacheKeys (marketplace resolving)
             (OpListing (Some 42)) (conj eq_refl eq_refl)).
  - exact (@read_hooks_forward_parameters spec_cacheKeys (marketplace resolving)
             (OpActiveListings None) (conj eq_refl eq_refl)).
Defined.

(** X3: Apart from [useAuctionWinner], a read hook that reached the provider
    reports the settled promise as it is: the resolved value as data, the
    rejection as the error. *)
Theorem read_hooks_report_provider_outcome
    (cacheKeys : CacheKeys) (contract : Marketplace) (op : ReadOp)
    (c : ProviderCall)
    (Hop : forall id, op <> OpAuctionWinner id)
    (Hcalled : In (Called c) (fst (runQuery (readHook cacheKeys (Some contract) op)))) :
  snd (runQuery (readHook cacheKeys (Some contract) op)) =
    query_outcome (provider contract c).
Proof.
  revert Hcalled.
  destruct op as [[id|]|f| |f|[id|]|[id|]| |[id|]];
    try (exfalso; eapply Hop; reflexivity);
    unfold runQuery, readHook, call, invoke, get_auction; cbn;
    unfold get_auction, invoke; cbn;
    repeat match goal with
      | |- context [auction ?c] => destruct (auction c) as [?a|]; cbn
      | |- context [match ?f ?a with true => _ | false => _ end] =>
          destruct (f a); cbn
      end;
    try (intros []; fail);
    match goal with
    | |- context [provider ?k ?x] => destruct (provider k x) as [?v|?err] eqn:E
    end; cbn; intros [H|[]]; injection H as <-; rewrite E; reflexivity.
Qed.

Lemma read_hooks_report_provider_outcome_witness :
  snd (runQuery (readHook spec_cacheKeys (Some (marketplace no_auction))
                   (OpWinningBid (Some 7)))) =
    QError (ProviderError (ThrownError (Some "execution reverted"))).
Proof.
  apply (@read_hooks_report_provider_outcome spec_cacheKeys (marketplace no_auction)
           (OpWinningBid (Some 7)) (AuctionGetWinningBid 7)).
  - intros id H. discriminate H.
  - left. reflexivity.
Defined.

(** X4: The cache key and the options of a read hook depend on the handle only
    through its address: two handles for the same address share the cache
    entry. *)
Theorem read_key_depends_on_address_only
    (cacheKeys : CacheKeys) (c1 c2 : Marketplace) (op : ReadOp)
    (Haddr : getAddress c1 = getAddress c2) :
  queryKey (readHook cacheKeys (Some c1) op) =
    queryKey (readHook cacheKeys (Some c2) op) /\
  options (readHook cacheKeys (Some c1) op) =
    options (readHook cacheKeys (Some c2) op).
Proof. destruct op; cbn; rewrite Haddr; split; reflexivity. Qed.

Lemma read_key_depends_on_address_only_witness :
  queryKey (readHook spec_cacheKeys (Some (marketplace resolving)) (OpListing (Some 1))) =
    queryKey (readHook spec_cacheKeys (Some (marketplace no_auction)) (OpListing (Some 1))) /\
  options (readHook spec_cacheKeys (Some (marketplace resolving)) (OpListing (Some 1))) =
    options (readHook spec_cacheKeys (Some (marketplace no_auction)) (OpListing (Some 1))).
Proof.
  exact (@read_key_depends_on_address_only spec_cacheKeys (marketplace resolving)
           (marketplace no_auction) (OpListing (Some 1)) eq_refl).
Defined.

(** X5: An enabled read hook fails on a missing parameter in one case only:
    [useListing] without a listing id. *)
Theorem enabled_read_missing_parameter_is_useListing
    (cacheKeys : CacheKeys) (contract : RequiredParam Marketplace) (op : ReadOp)
    (message : string)
    (Henabled : enabled (options (readHook cacheKeys contract op)) = true)
    (Hfails : snd (runQuery (readHook cacheKeys contract op)) =
                QError (RequiredParamError message)) :
  op = OpListing None /\ message = "No listing id provided".
Proof.
  revert Henabled Hfails.
  destruct contract as [c|]; [|destruct op; cbn; discriminate].
  destruct op as [[id|]|f| |f|[id|]|[id|]| |[id|]];
    unfold runQuery, readHook, call, invoke, get_auction; cbn;
    unfold get_auction, invoke; cbn; try discriminate;
    split_handle; intros _ H; try discriminate H.
  injection H as <-. split; reflexivity.
Qed.

Lemma enabled_read_missing_parameter_is_useListing_witness :
  OpListing None = OpListing None /\
  "No listing id provided" = "No listing id provided".
Proof.
  exact (@enabled_read_missing_parameter_is_useListing spec_cacheKeys
           (Some (marketplace resolving)) (OpListing None)
           "No listing id provided" eq_refl eq_refl).
Defined.

(** X6: The tolerance of [useAuctionWinner] does not hide a handle without
    [auction.getWinner]: the query ends in the error state with a
    TypeError and the provider is not reached. *)
Theorem useAuctionWinner_missing_method_is_an_error
    (cacheKeys : CacheKeys) (contract : Marketplace) (id : BigNumberish)
    (Hmissing : auction contract = None \/
                exists a, auction contract = Some a /\ auction_getWinner a = false) :
  exists message,
    runQuery (useAuctionWinner cacheKeys (Some contract) (Some id)) =
      ([], QError (TypeError message)).
Proof.
  unfold runQuery, useAuctionWinner, get_auction, invoke; cbn.
  unfold get_auction, invoke; cbn.
  destruct Hmissing as [H | [a [H Hm]]]; rewrite H; cbn; [|rewrite Hm; cbn];
    eexists; reflexivity.
Qed.

Lemma useAuctionWinner_missing_method_is_an_error_witness :
  exists message,
    runQuery (useAuctionWinner spec_cacheKeys
                (Some {| getAddress := "0xMarket"; direct := Some allDirect;
                         auction := None; provider := resolving |})
                (Some 7)) =
      ([], QError (TypeError message)).
Proof.
  apply useAuctionWinner_missing_method_is_an_error. left. reflexivity.
Defined.

(** ** Write hooks *)

(** X7: A mutation reaches the provider at most once (no retry) and
    invalidates exactly once, last: its log is the invalidation alone or
    one provider call followed by the invalidation. *)
Theorem write_hooks_call_at_most_once
    (env : Env) (contract : RequiredParam Marketplace)
    (op : WriteOp) (data : WriteInput op) :
  let invalidation :=
    Invalidated (option_map getAddress contract) (useSDKChainId env) in
  log_of (mutateAsync (writeHook env contract op) data) = [invalidation] \/
  exists c,
    log_of (mutateAsync (writeHook env contract op) data) = [Called c; invalidation].
Proof.
  intros invalidation.
  assert (Hs : onSettled (writeHook env contract op) =
    invalidateContractAndBalances (option_map getAddress contract) (useSDKChainId env))
    by (destruct op; reflexivity).
  rewrite (mutateAsync_settled _ data Hs). unfold log_of at 1 3. cbn [fst].
  fold invalidation.
  assert (H : log_of (mutationFn (writeHook env contract op) data) = [] \/
              exists c, log_of (mutationFn (writeHook env contract op) data) = [Called c]).
  { destruct op; cbn in data |- *; unfold invariant;
      try (destruct (truthy (useAddress env)); cbn; [|now left]);
      try match goal with
        | |- context [ListingType_eqb (?f data) _] => destruct (f data); cbn
        end;
      (destruct contract as [c|]; cbn; [|now left]);
      unfold get_direct, get_auction, invoke; cbn; split_handle; eauto. }
  destruct H as [-> | [c ->]]; [left | right; exists c]; reflexivity.
Qed.

Lemma mutateAsync_writeHook
    (env : Env) (contract : RequiredParam Marketplace)
    (op : WriteOp) (data : WriteInput op) (l : Log) (r : Exn + JsValue) :
  mutationFn (writeHook env contract op) data = (l, r) ->
  mutateAsync (writeHook env contract op) data =
    (l ++ [Invalidated (option_map getAddress contract) (useSDKChainId env)], r).
Proof.
  intros H.
  assert (Hs : onSettled (writeHook env contract op) =
    invalidateContractAndBalances (option_map getAddress contract) (useSDKChainId env))
    by (destruct op; reflexivity).
  rewrite (mutateAsync_settled _ data Hs), H. reflexivity.
Qed.

(** X8: With a wallet connected and a handle with every method, each write
    hook makes the one provider call of its operation with the fields of
    its input, in the order of the method's parameters, and settles as the
    provider did. *)
Theorem write_hooks_forward_input
    (env : Env) (contract : Marketplace) (op : WriteOp) (data : WriteInput op)
    (Hwallet : truthy (useAddress env) = true)
    (Hcapable : fully_capable contract) :
  mutateAsync (writeHook env (Some contract) op) data =
    ([Called (writeCall op data);
      Invalidated (Some (getAddress contract)) (useSDKChainId env)],
     mutation_outcome (provider contract (writeCall op data))).
Proof.
  destruct Hcapable as [Hd Ha].
  apply (mutateAsync_writeHook env (Some contract) op data
           (l := [Called (writeCall op data)])).
  destruct op; cbn in data |- *; unfold invariant, get_direct, get_auction, call, invoke;
    rewrite ?Hwallet; cbn; rewrite ?Hd, ?Ha; cbn;
    try match goal with
      | |- context [ListingType_eqb (?f data) _] =>
          destruct (f data); cbn; rewrite ?Hd, ?Ha; cbn
      end;
    match goal with
    | |- context [provider ?k ?x] => destruct (provider k x)
    end; reflexivity.
Qed.

Lemma write_hooks_forward_input_witness :
  mutateAsync (writeHook (connected (Some 1)) (Some (marketplace resolving)) OpMakeOffer)
    {| mo_listingId := 3; mo_pricePerToken := JsString "0.5";
       mo_quantity := JsBigNumber 1 |} =
    ([Called (MakeOffer 3 (JsString "0.5") (JsBigNumber 1));
      Invalidated (Some "0xMarket") (Some 1)],
     inr (JsObject "receipt")).
Proof.
  exact (@write_hooks_forward_input (connected (Some 1)) (marketplace resolving)
           OpMakeOffer
           {| mo_listingId := 3; mo_pricePerToken := JsString "0.5";
              mo_quantity := JsBigNumber 1 |}
           eq_refl (conj eq_refl eq_refl)).
Defined.

(** X9: Without a wallet (absent or the empty string) a guarded write hook
    fails as unauthenticated before looking at the handle, which may be
    absent or present; the invalidation is the mutation's only effect. *)
Theorem guarded_write_without_wallet
    (env : Env) (contract : RequiredParam Marketplace)
    (op : WriteOp) (data : WriteInput op)
    (Hguarded : guarded op = true)
    (Hwallet : truthy (useAddress env) = false) :
  exists e,
    mutateAsync (writeHook env contract op) data =
      ([Invalidated (option_map getAddress contract) (useSDKChainId env)], inl e) /\
    is_unauthenticated e = true.
Proof.
  destruct (@guarded_writes_need_wallet env contract op data) as [e [He Hu]];
    [intros ->; discriminate Hguarded | exact Hwallet |].
  exists e. split; [|exact Hu].
  exact (mutateAsync_writeHook env contract op data He).
Qed.

Lemma guarded_write_without_wallet_witness :
  exists e,
    mutateAsync
      (writeHook {| useSDKChainId := Some 1; useAddress := Some "" |} None OpBuyNow)
      {| bn_id := 7; bn_type := Auction; bn_buyAmount := None;
         bn_buyForWallet := None |} =
      ([Invalidated None (Some 1)], inl e) /\
    is_unauthenticated e = true.
Proof.
  exact (@guarded_write_without_wallet
           {| useSDKChainId := Some 1; useAddress := Some "" |} None OpBuyNow
           {| bn_id := 7; bn_type := Auction; bn_buyAmount := None;
              bn_buyForWallet := None |}
           eq_refl eq_refl).
Defined.

(** X10: With a wallet and without a handle a guarded write hook fails on the
    handle guard; the invalidation, for no address, is the mutation's only
    effect. *)
Theorem guarded_write_without_contract
    (env : Env) (op : WriteOp) (data : WriteInput op)
    (Hguarded : guarded op = true)
    (Hwallet : truthy (useAddress env) = true) :
  exists e,
    mutateAsync (writeHook env None op) data =
      ([Invalidated None (useSDKChainId env)], inl e) /\
    is_missing_resource e = true.
Proof.
  destruct (@guarded_writes_need_contract env op data) as [e [He Hu]];
    [intros ->; discriminate Hguarded | exact Hwallet |].
  exists e. split; [|exact Hu].
  exact (mutateAsync_writeHook env None op data He).
Qed.

Lemma guarded_write_without_contract_witness :
  exists e,
    mutateAsync (writeHook (connected (Some 1)) None OpMakeBid)
      {| mb_listingId := 7; mb_bid := JsBigNumber 2 |} =
      ([Invalidated None (Some 1)], inl e) /\
    is_missing_resource e = true.
Proof.
  exact (@guarded_write_without_contract (connected (Some 1)) OpMakeBid
           {| mb_listingId := 7; mb_bid := JsBigNumber 2 |} eq_refl eq_refl).
Defined.

(** X11: [useCreateDirectListing], [useMakeBid] and [useBuyNow] test the method
    they are about to call: on a handle whose sub-module lacks it, the
    mutation function fails with the unsupported-operation error and the
    provider is not reached. *)
Theorem missing_method_is_unsupported
    (env : Env) (contract : Marketplace)
    (d : MarketplaceDirect) (a : MarketplaceAuction)
    (listing : JsValue) (bid : MakeBidParams) (buy : BuyNowParams)
    (Hwallet : truthy (useAddress env) = true)
    (Hdirect : direct contract = Some d)
    (Hauction : auction contract = Some a) :
  (direct_createListing d = false ->
   mutationFn (useCreateDirectListing env (Some contract)) listing =
     ([], inl (InvariantError "contract does not support direct.createListing"))) /\
  (auction_makeBid a = false ->
   mutationFn (useMakeBid env (Some contract)) bid =
     ([], inl (InvariantError "contract does not support auction.makeBid"))) /\
  (bn_type buy = Direct -> direct_buyoutListing d = false ->
   mutationFn (useBuyNow env (Some contract)) buy =
     ([], inl (InvariantError "contract does not support direct.buyoutListing"))) /\
  (bn_type buy = Auction -> auction_buyoutListing a = false ->
   mutationFn (useBuyNow env (Some contract)) buy =
     ([], inl (InvariantError "contract does not support auction.buyoutListing"))).
Proof.
  unfold useCreateDirectListing, useMakeBid, useBuyNow, useMutation, invariant,
    get_direct, get_auction; cbn.
  rewrite Hwallet, Hdirect, Hauction; cbn.
  repeat split.
  - intros ->. reflexivity.
  - intros ->. reflexivity.
  - intros -> ->. reflexivity.
  - intros -> ->. reflexivity.
Qed.

Lemma missing_method_is_unsupported_witness :
  mutationFn (useCreateDirectListing (connected None) (Some auctionOnlyCreate))
    (JsObject "listing") =
    ([], inl (InvariantError "contract does not support direct.createListing")) /\
  is_unsupported_operation
    (InvariantError "contract does not support direct.createListing") = true.
Proof.
  split; [|reflexivity].
  exact (proj1 (@missing_method_is_unsupported (connected None) auctionOnlyCreate
                  _ allAuction (JsObject "listing")
                  {| mb_listingId := 1; mb_bid := JsUndefined |}
                  {| bn_id := 1; bn_type := Direct; bn_buyAmount := None;
                     bn_buyForWallet := None |}
                  eq_refl eq_refl eq_refl) eq_refl).
Defined.

(** X12: [useAcceptDirectListingOffer] and [useExecuteAuctionSale] guard the
    sub-module only: without [contract.direct] (resp. [contract.auction]),
    or without a handle at all, they fail with "No Direct instance
    provided" (resp. "No Auction marketplace instance provided") and make
    no call; with the sub-module present they call the method without
    testing it, so a missing method is a TypeError. *)
Theorem offer_and_sale_guard_the_submodule
    (env : Env) (contract : RequiredParam Marketplace)
    (offer : AcceptDirectOffer) (sale : ExecuteAuctionSale)
    (Hwallet : truthy (useAddress env) = true) :
  ((contract = None \/ exists c, contract = Some c /\ direct c = None) ->
   mutationFn (useAcceptDirectListingOffer env contract) offer =
     ([], inl (RequiredParamError "No Direct instance provided"))) /\
  ((contract = None \/ exists c, contract = Some c /\ auction c = None) ->
   mutationFn (useExecuteAuctionSale env contract) sale =
     ([], inl (RequiredParamError "No Auction marketplace instance provided"))) /\
  (forall c d, contract = Some c -> direct c = Some d -> direct_acceptOffer d = false ->
   mutationFn (useAcceptDirectListingOffer env contract) offer =
     ([], inl (TypeError "contract.direct.acceptOffer is not a function"))) /\
  (forall c a, contract = Some c -> auction c = Some a -> auction_executeSale a = false ->
   mutationFn (useExecuteAuctionSale env contract) sale =
     ([], inl (TypeError "contract.auction.executeSale is not a function"))).
Proof.
  unfold useAcceptDirectListingOffer, useExecuteAuctionSale, useMutation, invariant,
    invoke; cbn.
  rewrite Hwallet; cbn. repeat split.
  - intros [-> | [c [-> H]]]; [reflexivity | rewrite H; reflexivity].
  - intros [-> | [c [-> H]]]; [reflexivity | rewrite H; reflexivity].
  - intros c d -> Hd Hm. rewrite Hd; cbn. rewrite Hm. reflexivity.
  - intros c a -> Ha Hm. rewrite Ha; cbn. rewrite Hm. reflexivity.
Qed.

Lemma offer_and_sale_guard_the_submodule_witness :
  mutationFn
    (useAcceptDirectListingOffer (connected None)
       (Some {| getAddress := "0xMarket"; direct := None;
                auction := Some allAuction; provider := resolving |}))
    {| ao_listingId := 1; ao_addressOfOfferor := "0xBidder" |} =
    ([], inl (RequiredParamError "No Direct instance provided")).
Proof.
  apply (proj1 (@offer_and_sale_guard_the_submodule (connected None)
                  (Some {| getAddress := "0xMarket"; direct := None;
                           auction := Some allAuction; provider := resolving |})
                  {| ao_listingId := 1; ao_addressOfOfferor := "0xBidder" |}
                  {| es_listingId := 1 |} eq_refl)).
  right. eexists. split; reflexivity.
Defined.

(** X13: [useMakeOffer] needs neither sub-module: with a wallet and a handle it
    always reaches [contract.makeOffer] with the listing id, the price per
    token and the quantity, whatever [direct] and [auction] hold. *)
Theorem useMakeOffer_needs_no_submodule
    (env : Env) (contract : Marketplace) (data : MakeOfferParams)
    (Hwallet : truthy (useAddress env) = true) :
  calls (log_of (mutateAsync (useMakeOffer env (Some contract)) data)) =
    [MakeOffer (mo_listingId data) (mo_pricePerToken data) (mo_quantity data)].
Proof.
  unfold mutateAsync, useMakeOffer, useMutation, invariant, call, invoke; cbn.
  rewrite Hwallet; cbn.
  destruct (provider contract _); reflexivity.
Qed.

Lemma useMakeOffer_needs_no_submodule_witness :
  calls (log_of (mutateAsync
                   (useMakeOffer (connected None)
                      (Some {| getAddress := "0xMarket"; direct := None;
                               auction := None; provider := resolving |}))
                   {| mo_listingId := 3; mo_pricePerToken := JsString "0.5";
                      mo_quantity := JsBigNumber 1 |})) =
    [MakeOffer 3 (JsString "0.5") (JsBigNumber 1)].
Proof.
  exact (@useMakeOffer_needs_no_submodule (connected None)
           {| getAddress := "0xMarket"; direct := None;
              auction := None; provider := resolving |}
           {| mo_listingId := 3; mo_pricePerToken := JsString "0.5";
              mo_quantity := JsBigNumber 1 |} eq_refl).
Defined.

(** ** Offers of a listing *)

(** X14: Without a target listing id [useOffers] throws exactly when there is
    an event to compare with: no events yet ([data] undefined) gives no
    view, an empty stream gives the empty view, and a stream with an event
    fails in [BigNumber.eq]. *)
Theorem useOffers_without_target
    (events : option (list ContractEvent)) :
  useOffers None None = inr None /\
  useOffers (Some []) None = inr (Some []) /\
  ((exists e, useOffers events None = inl e) <->
   (exists ev rest, events = Some (ev :: rest))).
Proof.
  repeat split.
  - intros [e H]. destruct events as [[|ev rest]|]; try discriminate H.
    now exists ev, rest.
  - intros [ev [rest ->]]. eexists. reflexivity.
Qed.

Lemma useOffers_view (events : list ContractEvent) (target : BigNumberish) :
  useOffers (Some events) (Some target) =
    inr (Some (map data
                 (filter (fun ev => Z.eqb (listingId (data ev)) target) events))).
Proof.
  unfold useOffers.
  rewrite (js_filter_total _ (fun ev => Z.eqb (listingId (data ev)) target));
    reflexivity.
Qed.

(** X15: The view follows the stream: when events arrive after the ones
    already seen, the new view is the old view followed by the view of
    the new events. *)
Theorem useOffers_appends_with_the_stream
    (seen arrived : list ContractEvent) (target : BigNumberish) :
  exists old new,
    useOffers (Some seen) (Some target) = inr (Some old) /\
    useOffers (Some arrived) (Some target) = inr (Some new) /\
    useOffers (Some (seen ++ arrived)) (Some target) = inr (Some (old ++ new)).
Proof.
  do 2 eexists. rewrite !useOffers_view. repeat split.
  now rewrite filter_app, map_app.
Qed.

(** X16: The views of two different listing ids share no offer. *)
Theorem useOffers_views_are_disjoint
    (events : list ContractEvent) (t1 t2 : BigNumberish)
    (Hdistinct : t1 <> t2) :
  exists v1 v2,
    useOffers (Some events) (Some t1) = inr (Some v1) /\
    useOffers (Some events) (Some t2) = inr (Some v2) /\
    forall offer, ~ (In offer v1 /\ In offer v2).
Proof.
  do 2 eexists. rewrite !useOffers_view. repeat split.
  intros offer [H1 H2].
  apply in_map_iff in H1 as [e1 [<- H1]]. apply filter_In in H1 as [_ H1].
  apply in_map_iff in H2 as [e2 [Heq H2]]. apply filter_In in H2 as [_ H2].
  apply Z.eqb_eq in H1, H2. rewrite Heq in H2. congruence.
Qed.

Lemma useOffers_views_are_disjoint_witness :
  exists v1 v2,
    useOffers (Some [newOffer 5 "0xA"; newOffer 6 "0xB"]) (Some 5) = inr (Some v1) /\
    useOffers (Some [newOffer 5 "0xA"; newOffer 6 "0xB"]) (Some 6) = inr (Some v2) /\
    forall offer, ~ (In offer v1 /\ In offer v2).
Proof.
  apply useOffers_views_are_disjoint. discriminate.
Defined.

(** X17: No offer is lost: every event of the stream is in the view of its own
    listing id. *)
Theorem useOffers_covers_the_stream
    (events : list ContractEvent) (ev : ContractEvent)
    (Hin : In ev events) :
  exists view,
    useOffers (Some events) (Some (listingId (data ev))) = inr (Some view) /\
    In (data ev) view.
Proof.
  eexists. rewrite useOffers_view. split; [reflexivity|].
  apply in_map. apply filter_In. split; [exact Hin | apply Z.eqb_refl].
Qed.

Lemma useOffers_covers_the_stream_witness :
  exists view,
    useOffers (Some [newOffer 5 "0xA"; newOffer 6 "0xB"]) (Some 6) = inr (Some view) /\
    In (data (newOffer 6 "0xB")) view.
Proof.
  apply (@useOffers_covers_the_stream [newOffer 5 "0xA"; newOffer 6 "0xB"]
           (newOffer 6 "0xB")).
  right. left. reflexivity.
Defined.

(** * The 3D model component *)

(** X18: The viewer is rendered exactly when [src] is a non-empty string, and
    then with that very source and camera controls on; with [src] absent
    or empty the wrapping [div] has no child. *)
Theorem ModelViewer_renders_viewer_iff_src (props : ModelViewer.Props) :
  (exists s el,
      ModelViewer.src props = Some s /\ s <> EmptyString /\
      ModelViewer.div_child (ModelViewer.ModelViewer props) = Some el /\
      ModelViewer.el_src el = s /\
      ModelViewer.el_camera_controls el = true) \/
  ((ModelViewer.src props = None \/ ModelViewer.src props = Some EmptyString) /\
   ModelViewer.div_child (ModelViewer.ModelViewer props) = None).
Proof.
  unfold ModelViewer.ModelViewer; cbn.
  destruct (ModelViewer.src props) as [[|c s]|]; cbn.
  - right. split; [now right | reflexivity].
  - left. do 2 eexists. repeat split. discriminate.
  - right. split; [now left | reflexivity].
Qed.



(** * The configuration context *)

(** X20: A tree without any provider gives every consumer the default
    configuration: the default chains and no API key. *)
Theorem config_default_without_provider
    (defaultChains : list Config.Chain) (tree : Config.ReactNode)
    (Hnone : Config.provided tree = []) :
  Config.render defaultChains tree =
    repeat (Config.defaultContext defaultChains) (Config.consumers tree) /\
  Forall (fun c => Config.chains c = defaultChains /\
                   Config.thirdwebApiKey c = None /\
                   Config.alchemyApiKey c = None /\
                   Config.infuraApiKey c = None)
         (Config.render defaultChains tree).
Proof.
  assert (H : forall ctx, Config.reads ctx tree = repeat ctx (Config.consumers tree)).
  { induction tree as [| |a IHa b IHb|v t IH]; intros ctx; cbn in *.
    - reflexivity.
    - reflexivity.
    - apply app_eq_nil in Hnone as [Ha Hb].
      rewrite IHa, IHb by assumption. now rewrite repeat_app.
    - discriminate. }
  unfold Config.render. rewrite H. split; [reflexivity|].
  apply Forall_forall. intros c Hc. apply repeat_spec in Hc. subst c.
  repeat split.
Qed.

Lemma config_default_without_provider_witness :
  Config.render [Config.c1422] (Config.Siblings Config.Consumer Config.Consumer) =
    repeat (Config.defaultContext [Config.c1422]) 2.
Proof.
  exact (proj1 (@config_default_without_provider [Config.c1422]
                  (Config.Siblings Config.Consumer Config.Consumer) eq_refl)).
Defined.

(** X21: Under a provider no consumer reads the default: each one reads the
    value of a provider of the tree, whole, with nothing merged in from
    the default or from an outer provider. *)
Theorem config_provider_shadows_default
    (defaultChains : list Config.Chain)
    (value : Config.ThirdwebConfigContext) (children : Config.ReactNode) :
  Forall (fun c => In c (value :: Config.provided children))
         (Config.render defaultChains (Config.ThirdwebConfigProvider value children)).
Proof.
  unfold Config.render. cbn.
  assert (H : forall ctx, Forall (fun c => In c (ctx :: Config.provided children))
                                 (Config.reads ctx children)).
  { induction children as [| |a IHa b IHb|v t IH]; intros ctx; cbn.
    - constructor.
    - constructor; [now left | constructor].
    - apply Forall_app. split.
      + eapply Forall_impl; [|apply IHa]. cbn. intros c [->|Hc]; [now left|].
        right. apply in_or_app. now left.
      + eapply Forall_impl; [|apply IHb]. cbn. intros c [->|Hc]; [now left|].
        right. apply in_or_app. now right.
    - eapply Forall_impl; [|apply IH]. cbn. intros c Hc. right. exact Hc. }
  apply H.
Qed.

(** A consumer directly under nested providers reads the innermost one. *)
Example config_innermost_provider_wins :
  let outer := {| Config.chains := [Config.c1422];
                  Config.thirdwebApiKey := Some "outer-key";
                  Config.alchemyApiKey := None; Config.infuraApiKey := None |} in
  let inner := {| Config.chains := [];
                  Config.thirdwebApiKey := None;
                  Config.alchemyApiKey := None; Config.infuraApiKey := None |} in
  Config.render [Config.c1422]
    (Config.ThirdwebConfigProvider outer
       (Config.Siblings Config.Consumer
          (Config.ThirdwebConfigProvider inner Config.Consumer))) =
    [outer; inner].
Proof. reflexivity. Qed.
